(** * Filter and sampler data pipes

    A shallow embedding of [torch/utils/data/datapipes/iter/sampler.py]:
    the classes [FilterIterDataPipe] and [SamplerIterDataPipe], together
    with the part of the Python object protocol they rely on
    ([iter], [len], [list] and its length hint, [isinstance(_, Sized)],
    truthiness, [assert], [warnings.warn], attribute lookup of
    [__name__]).

    Conventions of the embedding.
    - Python code runs against a world: the heap that user objects may
      read and write, and the log of warnings emitted so far.  A
      computation is a function from the world to an outcome (a value
      or a raised exception) and the world it leaves behind.  An
      exception does not roll the world back.
    - One traversal of an iterable is a finite trace: the elements it
      yields, closed either by [StopIteration] or by the exception
      that escaped from [__next__].  An upstream traversal is atomic
      with respect to the world: [tp_iter] returns the whole trace and
      the world the traversal leaves behind.
    - The predicate of a filter is a function of its arguments: it
      returns a Python value or raises, and has no effect on the
      world. *)

From Stdlib Require Import List ZArith String Bool Lia.
Import ListNotations.
Local Open Scope string_scope.
Local Open Scope list_scope.
Local Open Scope Z_scope.

Set Implicit Arguments.
Set Warnings "-register-all".

(** ** Python values, exceptions, outcomes *)

(** The values a predicate may return and that extra arguments may
    carry.  Truthiness of each is the one [if v:] applies. *)
Inductive PyObject : Type :=
| PyNone
| PyBool (b : bool)
| PyInt (n : Z)
| PyStr (s : string)
| PyTuple (items : list PyObject).

Definition truthy (v : PyObject) : bool :=
  match v with
  | PyNone => false
  | PyBool b => b
  | PyInt n => negb (n =? 0)
  | PyStr s => negb (String.eqb s "")
  | PyTuple items => match items with [] => false | _ :: _ => true end
  end.

(** The exceptions that user code and the protocol raise.  The
    exception [StopIteration], which a generator body does not pass on
    as it is, is not among them. *)
Inductive exn : Type :=
| NotImplementedError
| AssertionError (msg : string)
| AttributeError (msg : string)
| TypeError (msg : string)
| ValueError (msg : string)
| OverflowError (msg : string)
| Exception (msg : string).

Inductive result (A : Type) : Type :=
| Ok (a : A)
| Raise (e : exn).
Arguments Raise {A} e.

(** ** The world and the computations over it *)

Record World (Heap : Type) : Type := mkWorld {
  heap : Heap;
  warnings : list string
}.

Definition M (Heap A : Type) : Type := World Heap -> result A * World Heap.

Section Monad.
Context {Heap : Type}.

Definition ret {A} (a : A) : M Heap A := fun w => (Ok a, w).

Definition raise {A} (e : exn) : M Heap A := fun w => (Raise e, w).

Definition bind {A B} (m : M Heap A) (k : A -> M Heap B) : M Heap B :=
  fun w =>
    match m w with
    | (Ok a, w') => k a w'
    | (Raise e, w') => (Raise e, w')
    end.

(** [warnings.warn(msg)] *)
Definition warn (msg : string) : M Heap unit :=
  fun w => (Ok tt, {| heap := heap w; warnings := warnings w ++ [msg] |}).

(** [assert cond, msg] *)
Definition assert (cond : bool) (msg : string) : M Heap unit :=
  if cond then ret tt else raise (AssertionError msg).

End Monad.

Notation "x <- m ;; k" := (bind m (fun x => k))
  (at level 61, m at next level, right associativity).
Notation "m ;;; k" := (bind m (fun _ => k))
  (at level 61, right associativity).

(** ** Iterables *)

(** One traversal: what successive [next] calls produce. *)
Inductive Iterator (T : Type) : Type :=
| StopIteration
| Raised (e : exn)
| Yield (data : T) (rest : Iterator T).
Arguments StopIteration {T}.
Arguments Raised {T} e.

(** An object that implements [__iter__] and, when [sq_length] is
    [Some], [__len__].  Both [IterDataPipe] instances and [Sampler]
    instances are used through this interface only. *)
Record Iterable (Heap T : Type) : Type := mkIterable {
  tp_iter : M Heap (Iterator T);
  sq_length : option (M Heap Z)
}.

Module builtins.
Section Builtins.
Context {Heap T : Type}.

(** [iter(o)] *)
Definition iter (o : Iterable Heap T) : M Heap (Iterator T) := tp_iter o.

(** [isinstance(o, Sized)]: the class of [o] defines [__len__]. *)
Definition isinstance_Sized (o : Iterable Heap T) : bool :=
  match sq_length o with Some _ => true | None => false end.

(** [sys.maxsize] of a 64-bit interpreter. *)
Definition sys_maxsize : Z := 2 ^ 63 - 1.

(** [len(o)]: calls [__len__], rejects a negative answer and then an
    answer that does not fit an index. *)
Definition len (o : Iterable Heap T) : M Heap Z :=
  match sq_length o with
  | None => raise (TypeError "object has no len()")
  | Some __len__ =>
      n <- __len__ ;;
      if n <? 0 then raise (ValueError "__len__() should return >= 0")
      else if n >? sys_maxsize
      then raise (OverflowError
                    "cannot fit 'int' into an index-sized integer")
      else ret n
  end.

(** The elements a traversal yields before it ends. *)
Fixpoint yielded (it : Iterator T) : list T :=
  match it with
  | StopIteration => []
  | Raised _ => []
  | Yield data rest => data :: yielded rest
  end.

(** How a traversal ends: [None] for [StopIteration]. *)
Fixpoint ending (it : Iterator T) : option exn :=
  match it with
  | StopIteration => None
  | Raised e => Some e
  | Yield _ rest => ending rest
  end.

(** The length hint [list] asks of its argument: [len(o)] when the
    class of [o] defines [__len__].  The number is only used to size
    the list; a [TypeError] is swallowed, any other exception
    escapes.  (No object here defines [__length_hint__].) *)
Definition length_hint (o : Iterable Heap T) : M Heap unit :=
  fun w =>
    match sq_length o with
    | None => (Ok tt, w)
    | Some _ =>
        match len o w with
        | (Ok _, w') => (Ok tt, w')
        | (Raise (TypeError _), w') => (Ok tt, w')
        | (Raise e, w') => (Raise e, w')
        end
    end.

(** [list(o)]: [iter(o)], then the length hint, then the traversal
    collected, or the exception that interrupted it.  With traversals
    atomic, the hint sees the world the traversal leaves behind. *)
Definition list_ (o : Iterable Heap T) : M Heap (list T) :=
  it <- iter o ;;
  length_hint o ;;;
  match ending it with
  | None => ret (yielded it)
  | Some e => raise e
  end.

(** [[data for data in o]]: one full traversal collected by a loop,
    or the exception that interrupted it.  No length is asked for. *)
Definition comprehension (o : Iterable Heap T) : M Heap (list T) :=
  it <- iter o ;;
  match ending it with
  | None => ret (yielded it)
  | Some e => raise e
  end.

End Builtins.
End builtins.

(** The traversal of an in-memory sequence, closed by [closing]. *)
Fixpoint yield_from {T} (items : list T) (closing : Iterator T) : Iterator T :=
  match items with
  | [] => closing
  | data :: rest => Yield data (yield_from rest closing)
  end.

(** A callable object.  [__name__] is [None] when the object has no
    such attribute: functions and lambdas have one, a
    [functools.partial] object or an instance of a class that defines
    [__call__] has none.  [__call__ f data args kwargs] is
    [f(data, *args, **kwargs)]. *)
Record Callable (T : Type) : Type := mkCallable {
  __name__ : option string;
  __call__ : T -> list PyObject -> list (string * PyObject) -> result PyObject
}.

(** [f.__name__] *)
Definition getattr___name__ {Heap T} (f : Callable T) : M Heap string :=
  match __name__ f with
  | Some name => ret name
  | None => raise (AttributeError "object has no attribute '__name__'")
  end.

(** ** class FilterIterDataPipe *)

Module FilterIterDataPipe.
Section Class.
Context {Heap T : Type}.

Record t : Type := mk {
  datapipe : Iterable Heap T;
  filter_fn : Callable T;
  args : list PyObject;
  kwargs : list (string * PyObject)
}.

Definition __init__ (datapipe : Iterable Heap T) (args : list PyObject)
    (filter_fn : Callable T) (kwargs : list (string * PyObject)) : M Heap t :=
  name <- getattr___name__ filter_fn ;;
  (if String.eqb name "<lambda>"
   then warn ("Lambda function for `filter_fn` is not supported for pickle, "
              ++ "please use regular python function instead.")%string
   else ret tt) ;;;
  ret {| datapipe := datapipe; filter_fn := filter_fn;
         args := args; kwargs := kwargs |}.

(** The body of the generator, run over the upstream traversal:
    [for data in self.datapipe: if self.filter_fn(...): yield data]. *)
Fixpoint generator (self : t) (upstream : Iterator T) : Iterator T :=
  match upstream with
  | StopIteration => StopIteration
  | Raised e => Raised e
  | Yield data rest =>
      match __call__ (filter_fn self) data (args self) (kwargs self) with
      | Raise e => Raised e
      | Ok v =>
          if truthy v then Yield data (generator self rest)
          else generator self rest
      end
  end.

(** [__iter__] is a generator function: the call itself never raises,
    and a failure of [iter(self.datapipe)] surfaces in the traversal. *)
Definition __iter__ (self : t) : M Heap (Iterator T) :=
  fun w =>
    match builtins.iter (datapipe self) w with
    | (Ok upstream, w') => (Ok (generator self upstream), w')
    | (Raise e, w') => (Ok (Raised e), w')
    end.

Definition __len__ (self : t) : M Heap Z := raise NotImplementedError.

(** The adapter seen as an [IterDataPipe], as a downstream adapter
    receives it. *)
Definition as_datapipe (self : t) : Iterable Heap T :=
  {| tp_iter := __iter__ self; sq_length := Some (__len__ self) |}.

End Class.
Arguments t : clear implicits.
End FilterIterDataPipe.

(** ** Samplers *)

(** A sampler class, [Type[Sampler]]: called as
    [sampler(data_source=datapipe, **kwargs)], it returns a sampler
    instance or raises. *)
Definition SamplerClass (Heap T : Type) : Type :=
  Iterable Heap T -> list (string * PyObject) -> M Heap (Iterable Heap T).

(** Modelled from the spec: [torch.utils.data.SequentialSampler] is
    imported by the module but its definition is not part of the
    sources at hand.  The specification describes the default strategy
    as the identity, sequential pass-through of the data source, whose
    count is the length of the data source; it takes no extra named
    arguments into account. *)
Definition SequentialSampler {Heap T} : SamplerClass Heap T :=
  fun data_source _ =>
    ret {| tp_iter := builtins.iter data_source;
           sq_length := Some (builtins.len data_source) |}.

(** ** class SamplerIterDataPipe *)

Module SamplerIterDataPipe.
Section Class.
Context {Heap T : Type}.

Record t : Type := mk {
  datapipe : Iterable Heap T;
  sampler : Iterable Heap T
}.

(** [sampler = None] stands for the keyword left out, in which case
    the default [SequentialSampler] applies. *)
Definition __init__ (datapipe : Iterable Heap T)
    (sampler : option (SamplerClass Heap T))
    (kwargs : list (string * PyObject)) : M Heap t :=
  assert (builtins.isinstance_Sized datapipe)
         "Sampler class requires input datapipe implemented `__len__`" ;;;
  let cls := match sampler with
             | Some cls => cls
             | None => SequentialSampler
             end in
  s <- cls datapipe kwargs ;;
  ret {| datapipe := datapipe; sampler := s |}.

Definition __iter__ (self : t) : M Heap (Iterator T) :=
  builtins.iter (sampler self).

Definition __len__ (self : t) : M Heap Z :=
  if builtins.isinstance_Sized (sampler self) then
    n <- builtins.len (sampler self) ;;
    if n >=? 0 then builtins.len (sampler self)
    else raise NotImplementedError
  else raise NotImplementedError.

Definition as_datapipe (self : t) : Iterable Heap T :=
  {| tp_iter := __iter__ self; sq_length := Some (__len__ self) |}.

End Class.
Arguments t : clear implicits.
End SamplerIterDataPipe.

(** ** Vocabulary of the statements *)

(** Whether the predicate lets [data] through: its answer is truthy.
    An element on which the predicate raises does not pass. *)
Definition passes {T} (filter_fn : Callable T) (args : list PyObject)
    (kwargs : list (string * PyObject)) (data : T) : bool :=
  match __call__ filter_fn data args kwargs with
  | Ok v => truthy v
  | Raise _ => false
  end.

(** [up] is the sequence [S]: whenever it is asked for a traversal, in
    whatever world, the traversal is [S] from its start. *)
Definition is_sequence {Heap T} (up : Iterable Heap T) (S : list T) : Prop :=
  forall w, exists w',
    builtins.iter up w = (Ok (yield_from S StopIteration), w').

(** The count operation of [o] answers [r], and only observes the
    world. *)
Definition reports {Heap T} (o : Iterable Heap T) (r : result Z) : Prop :=
  exists __len__, sq_length o = Some __len__ /\ forall w, __len__ w = (r, w).

(** The count operation of a sampler adapter as the specification
    words it: the strategy's count when the strategy has a count
    operation that answers a non-negative number, a "not implemented"
    failure in every other case. *)
Definition count_as_specified {Heap T}
    (self : SamplerIterDataPipe.t Heap T) (w : World Heap) : Prop :=
  (forall n, 0 <= n -> reports (SamplerIterDataPipe.sampler self) (Ok n) ->
     fst (SamplerIterDataPipe.__len__ self w) = Ok n) /\
  ((forall n, ~ (0 <= n /\ reports (SamplerIterDataPipe.sampler self) (Ok n))) ->
     fst (SamplerIterDataPipe.__len__ self w) = Raise NotImplementedError).

(** The failure clause of the filter as the specification words it,
    for any position [k] at which the predicate raises: the traversal
    is the passing elements among the first [k-1] elements of [S],
    followed by what the predicate raises on the [k]-th. *)
Definition failure_as_specified {T} (filter_fn : Callable T)
    (args : list PyObject) (kwargs : list (string * PyObject))
    (S : list T) (k : nat) (traversal : Iterator T) : Prop :=
  forall x e,
    (1 <= k)%nat ->
    nth_error S (k - 1) = Some x ->
    __call__ filter_fn x args kwargs = Raise e ->
    traversal =
    yield_from (filter (passes filter_fn args kwargs) (firstn (k - 1) S))
      (Raised e).

(** Construction of a sampler adapter as the specification words it:
    over an upstream pipeline whose count operation gives no count,
    construction raises [AssertionError]. *)
Definition init_as_specified {Heap T} (up : Iterable Heap T)
    (sampler : option (SamplerClass Heap T))
    (kwargs : list (string * PyObject)) (w : World Heap) : Prop :=
  (forall n w', builtins.len up w <> (Ok n, w')) ->
  exists msg,
    fst (SamplerIterDataPipe.__init__ up sampler kwargs w) =
    Raise (AssertionError msg).

(** ** Pipelines and callables used as concrete inputs *)

(** A pipeline over an in-memory sequence, with a count. *)
Definition sized_source {Heap T} (S : list T) : Iterable Heap T :=
  {| tp_iter := ret (yield_from S StopIteration);
     sq_length := Some (ret (Z.of_nat (List.length S))) |}.

(** The same without [__len__], as a pipeline over a generator has. *)
Definition unsized_source {Heap T} (S : list T) : Iterable Heap T :=
  {| tp_iter := ret (yield_from S StopIteration);
     sq_length := None |}.

(** A pipeline that drains a queue held in the heap: a traversal
    yields what the queue holds and leaves it empty. *)
Definition draining_source {T} : Iterable (list T) T :=
  {| tp_iter := fun w =>
       (Ok (yield_from (heap w) StopIteration),
        {| heap := []; warnings := warnings w |});
     sq_length := None |}.

(** [def is_even(x): return x % 2 == 0] *)
Definition is_even : Callable Z :=
  {| __name__ := Some "is_even";
     __call__ := fun x _ _ => Ok (PyBool (x mod 2 =? 0)) |}.

(** A predicate that raises on 5 and otherwise tells whether [x] is
    even. *)
Definition even_unless_five : Callable Z :=
  {| __name__ := Some "even_unless_five";
     __call__ := fun x _ _ =>
       if x =? 5 then Raise (Exception "five")
       else Ok (PyBool (x mod 2 =? 0)) |}.

(** [functools.partial(operator.lt, 3)]: callable, without a
    [__name__]. *)
Definition partial_lt_3 : Callable Z :=
  {| __name__ := None;
     __call__ := fun x _ _ => Ok (PyBool (3 <? x)) |}.

(** [lambda x: x > 3] *)
Definition lambda_gt_3 : Callable Z :=
  {| __name__ := Some "<lambda>";
     __call__ := fun x _ _ => Ok (PyBool (3 <? x)) |}.

(** A sampler whose [__len__] raises [TypeError], the conventional
    answer of an object that has no length. *)
Definition sampler_len_raises {Heap T} : SamplerClass Heap T :=
  fun data_source _ =>
    ret {| tp_iter := builtins.iter data_source;
           sq_length := Some (raise (TypeError "object has no len()")) |}.

(** A sampler without [__len__]. *)
Definition sampler_unsized {Heap T} : SamplerClass Heap T :=
  fun data_source _ =>
    ret {| tp_iter := builtins.iter data_source; sq_length := None |}.

(** A sampler that walks the data source backwards and counts it. *)
Definition sampler_reversed {Heap T} : SamplerClass Heap T :=
  fun data_source _ =>
    ret {| tp_iter := it <- builtins.iter data_source ;;
                      ret (yield_from (rev (builtins.yielded it)) StopIteration);
           sq_length := Some (builtins.len data_source) |}.

Definition w0 : World unit := {| heap := tt; warnings := [] |}.

(** ** Vocabulary for traversals that may fail *)

(** Whether the predicate returns, rather than raises, on [data]. *)
Definition answers {T} (filter_fn : Callable T) (args : list PyObject)
    (kwargs : list (string * PyObject)) (data : T) : bool :=
  match __call__ filter_fn data args kwargs with
  | Ok _ => true
  | Raise _ => false
  end.

(** The elements in front of the first one that [ok] rejects. *)
Fixpoint leading {T} (ok : T -> bool) (items : list T) : list T :=
  match items with
  | [] => []
  | x :: rest => if ok x then x :: leading ok rest else []
  end.

(** What the predicate raises on the first element on which it
    raises, if there is one. *)
Fixpoint first_failure {T} (filter_fn : Callable T) (args : list PyObject)
    (kwargs : list (string * PyObject)) (items : list T) : option exn :=
  match items with
  | [] => None
  | x :: rest =>
      match __call__ filter_fn x args kwargs with
      | Ok _ => first_failure filter_fn args kwargs rest
      | Raise e => Some e
      end
  end.

(** [def gt(x, bound): return x > bound], called with the bound as
    extra positional argument; raises [TypeError] without it. *)
Definition gt : Callable Z :=
  {| __name__ := Some "gt";
     __call__ := fun x args _ =>
       match args with
       | [PyInt bound] => Ok (PyBool (bound <? x))
       | _ => Raise (TypeError "gt() takes exactly 2 positional arguments")
       end |}.

(** A pipeline that yields [S] and then fails, as one that reads a
    stream which breaks off. *)
Definition failing_source {Heap T} (S : list T) (e : exn) : Iterable Heap T :=
  {| tp_iter := ret (yield_from S (Raised e));
     sq_length := None |}.

(** A pipeline whose [__iter__] raises when it is called. *)
Definition broken_source {Heap T} (e : exn) : Iterable Heap T :=
  {| tp_iter := raise e; sq_length := None |}.

(** A sampler class whose constructor rejects its arguments. *)
Definition sampler_rejecting {Heap T} : SamplerClass Heap T :=
  fun _ _ => raise (TypeError "__init__() got an unexpected keyword argument").

(** A sampler that counts its data source with [len], as the samplers
    of the library do. *)
Definition sampler_counting_source {Heap T} : SamplerClass Heap T :=
  fun data_source _ =>
    ret {| tp_iter := builtins.iter data_source;
           sq_length := Some (builtins.len data_source) |}.

(** ** Properties of the protocol *)

Ltac run :=
  unfold builtins.list_, builtins.comprehension, builtins.len, builtins.iter,
         builtins.isinstance_Sized, getattr___name__,
         assert, warn, bind, ret, raise in *;
  simpl in *.

Section FilterFacts.
Context {Heap T : Type}.
Implicit Types (self : FilterIterDataPipe.t Heap T) (S : list T).

(** Construction stores its four arguments and nothing else. *)
Lemma filter_init_fields (up : Iterable Heap T) args (P : Callable T) kwargs
    self (w w' : World Heap) :
  FilterIterDataPipe.__init__ up args P kwargs w = (Ok self, w') ->
  self = FilterIterDataPipe.mk up P args kwargs.
Proof.
  unfold FilterIterDataPipe.__init__. run.
  destruct (__name__ P) as [name|]; [|discriminate].
  destruct (String.eqb name "<lambda>"); simpl; intros H;
    inversion H; reflexivity.
Qed.

(** The generator only consults the predicate and the bound extra
    arguments of the adapter. *)
Lemma generator_ext self self' (it : Iterator T) :
  FilterIterDataPipe.filter_fn self = FilterIterDataPipe.filter_fn self' ->
  FilterIterDataPipe.args self = FilterIterDataPipe.args self' ->
  FilterIterDataPipe.kwargs self = FilterIterDataPipe.kwargs self' ->
  FilterIterDataPipe.generator self it = FilterIterDataPipe.generator self' it.
Proof.
  intros Hf Ha Hk. induction it as [|e|data rest IH]; simpl; try reflexivity.
  rewrite Hf, Ha, Hk, IH. reflexivity.
Qed.

(** While the predicate answers, the generator keeps the elements
    that pass and goes on with the rest of the upstream traversal. *)
Lemma generator_yield_from self S (closing : Iterator T) :
  (forall x, In x S -> exists v,
     __call__ (FilterIterDataPipe.filter_fn self) x
       (FilterIterDataPipe.args self) (FilterIterDataPipe.kwargs self) = Ok v) ->
  FilterIterDataPipe.generator self (yield_from S closing) =
  yield_from
    (filter (passes (FilterIterDataPipe.filter_fn self)
               (FilterIterDataPipe.args self) (FilterIterDataPipe.kwargs self)) S)
    (FilterIterDataPipe.generator self closing).
Proof.
  induction S as [|x S IH]; intros Hans; simpl; [reflexivity|].
  destruct (Hans x (or_introl eq_refl)) as [v Hv].
  unfold passes at 1. rewrite Hv.
  rewrite IH by (intros y Hy; apply Hans; right; exact Hy).
  destruct (truthy v); reflexivity.
Qed.

(** Filtering what a filter with the same predicate and arguments
    produced changes nothing, whatever the way the traversal ends. *)
Lemma generator_idempotent self (it : Iterator T) :
  FilterIterDataPipe.generator self (FilterIterDataPipe.generator self it) =
  FilterIterDataPipe.generator self it.
Proof.
  induction it as [|e|data rest IH]; simpl; try reflexivity.
  destruct (__call__ (FilterIterDataPipe.filter_fn self) data
              (FilterIterDataPipe.args self) (FilterIterDataPipe.kwargs self))
    as [v|e] eqn:Hcall; simpl; [|reflexivity].
  destruct (truthy v) eqn:Hv; simpl; [|exact IH].
  rewrite Hcall, Hv, IH. reflexivity.
Qed.

Lemma yielded_yield_from S (closing : Iterator T) :
  builtins.yielded (yield_from S closing) = S ++ builtins.yielded closing.
Proof. induction S as [|x S IH]; simpl; [|rewrite IH]; reflexivity. Qed.

Lemma ending_yield_from S (closing : Iterator T) :
  builtins.ending (yield_from S closing) = builtins.ending closing.
Proof. induction S as [|x S IH]; simpl; [reflexivity|exact IH]. Qed.

(** [list] of a filter adapter asks the adapter for its length once
    [__iter__] has returned, and [__len__] raises. *)
Lemma list_filter_raises self (w : World Heap) :
  builtins.list_ (FilterIterDataPipe.as_datapipe self) w =
  (Raise NotImplementedError, snd (FilterIterDataPipe.__iter__ self w)).
Proof.
  unfold builtins.list_, bind.
  change (builtins.iter (FilterIterDataPipe.as_datapipe self) w)
    with (FilterIterDataPipe.__iter__ self w).
  unfold FilterIterDataPipe.__iter__.
  destruct (builtins.iter (FilterIterDataPipe.datapipe self) w)
    as [[it|e] w1]; reflexivity.
Qed.

End FilterFacts.

(** ** The filter adapter *)

Section FilterTheorems.
Context {Heap T : Type}.

(** C1. When [FilterIterDataPipe(up, *args, filter_fn=P, **kwargs)]
    is iterated at a point where [up] yields the sequence [S] and [P]
    answers on every element of [S], the traversal yields exactly the
    elements [x] of [S] for which [P(x, *args, **kwargs)] is truthy,
    in the order of [S], and then stops; a loop that collects the
    traversal, [[x for x in adapter]], returns that list, of no more
    than [length S] elements. *)
Theorem filter_yields_passing_subsequence
    (up : Iterable Heap T) (P : Callable T) args kwargs (S : list T)
    (self : FilterIterDataPipe.t Heap T) (wc wc' w w' : World Heap) :
  FilterIterDataPipe.__init__ up args P kwargs wc = (Ok self, wc') ->
  builtins.iter up w = (Ok (yield_from S StopIteration), w') ->
  (forall x, In x S -> exists v, __call__ P x args kwargs = Ok v) ->
  FilterIterDataPipe.__iter__ self w =
    (Ok (yield_from (filter (passes P args kwargs) S) StopIteration), w') /\
  builtins.comprehension (FilterIterDataPipe.as_datapipe self) w =
    (Ok (filter (passes P args kwargs) S), w') /\
  (List.length (filter (passes P args kwargs) S) <= List.length S)%nat.
Proof.
  intros Hinit Hup Hans.
  apply filter_init_fields in Hinit. subst self.
  assert (Hiter :
    FilterIterDataPipe.__iter__ (FilterIterDataPipe.mk up P args kwargs) w =
    (Ok (yield_from (filter (passes P args kwargs) S) StopIteration), w')).
  { unfold FilterIterDataPipe.__iter__. simpl. rewrite Hup.
    rewrite generator_yield_from by exact Hans. reflexivity. }
  split; [exact Hiter|]. split.
  - unfold builtins.comprehension, builtins.iter, bind. simpl. rewrite Hiter.
    rewrite ending_yield_from, yielded_yield_from. simpl.
    rewrite app_nil_r. reflexivity.
  - apply filter_length_le.
Qed.

(** C3. [len] of a filter adapter raises [NotImplementedError], for
    every upstream pipeline, predicate and extra arguments, both when
    [__len__] is called directly and through the built-in [len]; the
    world is left as it was. *)
Theorem filter_len_not_implemented
    (up : Iterable Heap T) (P : Callable T) args kwargs (w : World Heap) :
  let self := FilterIterDataPipe.mk up P args kwargs in
  FilterIterDataPipe.__len__ self w = (Raise NotImplementedError, w) /\
  builtins.len (FilterIterDataPipe.as_datapipe self) w =
    (Raise NotImplementedError, w).
Proof. split; reflexivity. Qed.

(** C6. If the predicate answers on the first [k-1] elements of the
    upstream sequence [S] and raises [e] on the [k]-th (counted from
    1), the traversal of the filter adapter yields the passing
    elements among the first [k-1], then raises that same [e]; nothing
    of [S] beyond the [k]-th position is yielded, and a loop that
    collects the traversal raises [e]. *)
Theorem filter_propagates_predicate_failure
    (up : Iterable Heap T) (P : Callable T) args kwargs (S : list T)
    (k : nat) (x : T) (e : exn)
    (self : FilterIterDataPipe.t Heap T) (wc wc' w w' : World Heap) :
  FilterIterDataPipe.__init__ up args P kwargs wc = (Ok self, wc') ->
  builtins.iter up w = (Ok (yield_from S StopIteration), w') ->
  (1 <= k)%nat ->
  nth_error S (k - 1) = Some x ->
  __call__ P x args kwargs = Raise e ->
  (forall y, In y (firstn (k - 1) S) -> exists v, __call__ P y args kwargs = Ok v) ->
  FilterIterDataPipe.__iter__ self w =
    (Ok (yield_from (filter (passes P args kwargs) (firstn (k - 1) S)) (Raised e)),
     w') /\
  builtins.comprehension (FilterIterDataPipe.as_datapipe self) w = (Raise e, w').
Proof.
  intros Hinit Hup _ Hnth Hraise Hans.
  apply filter_init_fields in Hinit. subst self.
  destruct (nth_error_split S (k - 1) Hnth) as (pre & post & HS & Hlen).
  assert (Hpre : firstn (k - 1) S = pre).
  { rewrite HS, <- Hlen, firstn_app, Nat.sub_diag, firstn_all. simpl.
    apply app_nil_r. }
  rewrite Hpre in *.
  assert (Hsplit : yield_from S StopIteration =
                   yield_from pre (Yield x (yield_from post StopIteration))).
  { rewrite HS. clear. induction pre as [|p pre IH]; simpl;
      [reflexivity|rewrite IH; reflexivity]. }
  assert (Hiter :
    FilterIterDataPipe.__iter__ (FilterIterDataPipe.mk up P args kwargs) w =
    (Ok (yield_from (filter (passes P args kwargs) pre) (Raised e)), w')).
  { unfold FilterIterDataPipe.__iter__. simpl. rewrite Hup, Hsplit.
    rewrite generator_yield_from by exact Hans. simpl.
    rewrite Hraise. reflexivity. }
  split; [exact Hiter|].
  unfold builtins.comprehension, builtins.iter, bind. simpl. rewrite Hiter.
  rewrite ending_yield_from. reflexivity.
Qed.

End FilterTheorems.

Section FilterRestart.
Context {Heap T : Type}.

(** C8. A filter adapter holds no cursor.  Over an upstream that is
    the sequence [S] whenever it is asked, two traversals of the same
    adapter requested one after the other, the second in the world the
    first left behind, are the same traversal: the generator run over
    [S] from its start.  [list] of the adapter gives the same outcome
    both times. *)
Theorem filter_iteration_restarts
    (up : Iterable Heap T) (P : Callable T) args kwargs (S : list T)
    (self : FilterIterDataPipe.t Heap T) (wc wc' w : World Heap) :
  FilterIterDataPipe.__init__ up args P kwargs wc = (Ok self, wc') ->
  is_sequence up S ->
  exists wa wb,
    let g := FilterIterDataPipe.generator self (yield_from S StopIteration) in
    FilterIterDataPipe.__iter__ self w = (Ok g, wa) /\
    FilterIterDataPipe.__iter__ self wa = (Ok g, wb) /\
    fst (builtins.list_ (FilterIterDataPipe.as_datapipe self) w) =
    fst (builtins.list_ (FilterIterDataPipe.as_datapipe self) wa).
Proof.
  intros Hinit Hseq.
  apply filter_init_fields in Hinit. subst self.
  destruct (Hseq w) as [wa Ha]. destruct (Hseq wa) as [wb Hb].
  exists wa, wb. cbv zeta.
  assert (H1 : FilterIterDataPipe.__iter__
                 (FilterIterDataPipe.mk up P args kwargs) w =
               (Ok (FilterIterDataPipe.generator
                      (FilterIterDataPipe.mk up P args kwargs)
                      (yield_from S StopIteration)), wa))
    by (unfold FilterIterDataPipe.__iter__; simpl; rewrite Ha; reflexivity).
  assert (H2 : FilterIterDataPipe.__iter__
                 (FilterIterDataPipe.mk up P args kwargs) wa =
               (Ok (FilterIterDataPipe.generator
                      (FilterIterDataPipe.mk up P args kwargs)
                      (yield_from S StopIteration)), wb))
    by (unfold FilterIterDataPipe.__iter__; simpl; rewrite Hb; reflexivity).
  repeat split; [exact H1|exact H2|].
  rewrite !list_filter_raises. reflexivity.
Qed.

(** C9. A filter adapter with predicate [P] and extra arguments
    [args], [kwargs] placed over a filter adapter with the same
    predicate and extra arguments produces, in every world, the
    traversal the inner adapter produces alone, and [list] of both
    has the same outcome. *)
Theorem filter_idempotent
    (up : Iterable Heap T) (P : Callable T) args kwargs
    (inner outer : FilterIterDataPipe.t Heap T) (wc wc' wc'' : World Heap) :
  FilterIterDataPipe.__init__ up args P kwargs wc = (Ok inner, wc') ->
  FilterIterDataPipe.__init__ (FilterIterDataPipe.as_datapipe inner)
    args P kwargs wc' = (Ok outer, wc'') ->
  forall w,
    FilterIterDataPipe.__iter__ outer w = FilterIterDataPipe.__iter__ inner w /\
    builtins.list_ (FilterIterDataPipe.as_datapipe outer) w =
    builtins.list_ (FilterIterDataPipe.as_datapipe inner) w.
Proof.
  intros Hin Hout w.
  apply filter_init_fields in Hin. subst inner.
  apply filter_init_fields in Hout. subst outer.
  assert (Hiter :
    FilterIterDataPipe.__iter__
      (FilterIterDataPipe.mk
         (FilterIterDataPipe.as_datapipe (FilterIterDataPipe.mk up P args kwargs))
         P args kwargs) w =
    FilterIterDataPipe.__iter__ (FilterIterDataPipe.mk up P args kwargs) w).
  { unfold FilterIterDataPipe.__iter__ at 1. unfold builtins.iter. simpl.
    unfold FilterIterDataPipe.__iter__. simpl.
    destruct (builtins.iter up w) as [[it|e] w1]; simpl; [|reflexivity].
    rewrite (generator_ext _ (FilterIterDataPipe.mk up P args kwargs))
      by reflexivity.
    rewrite generator_idempotent. reflexivity. }
  split; [exact Hiter|].
  rewrite !list_filter_raises, Hiter. reflexivity.
Qed.

End FilterRestart.

(** The restart of C8 rests on the upstream: over a pipeline that
    drains a queue, the second traversal of the same adapter finds
    nothing left. *)
Lemma filter_over_draining_source :
  let self := FilterIterDataPipe.mk draining_source is_even [] [] in
  let w := {| heap := [1; 2; 3; 4]; warnings := [] |} in
  exists wa wb,
    builtins.comprehension (FilterIterDataPipe.as_datapipe self) w = (Ok [2; 4], wa) /\
    builtins.comprehension (FilterIterDataPipe.as_datapipe self) wa = (Ok [], wb).
Proof. do 2 eexists. split; reflexivity. Qed.

(** [[x for x in FilterIterDataPipe(S, filter_fn=is_even)]] for
    [S = [1,2,3,4,5,6]] is [[2,4,6]]. *)
Lemma filter_yields_passing_subsequence_witness :
  builtins.comprehension
    (FilterIterDataPipe.as_datapipe
       (FilterIterDataPipe.mk (sized_source [1; 2; 3; 4; 5; 6]) is_even [] []))
    w0 = (Ok [2; 4; 6], w0).
Proof.
  apply (@filter_yields_passing_subsequence unit Z
           (sized_source [1; 2; 3; 4; 5; 6]) is_even [] [] [1; 2; 3; 4; 5; 6]
           (FilterIterDataPipe.mk (sized_source [1; 2; 3; 4; 5; 6]) is_even [] [])
           w0 w0 w0 w0).
  - reflexivity.
  - reflexivity.
  - intros x _. eexists. reflexivity.
Defined.

(** With the predicate raising on 5, the traversal of [1..6] yields 2
    and 4 and then raises. *)
Lemma filter_propagates_predicate_failure_witness :
  FilterIterDataPipe.__iter__
    (FilterIterDataPipe.mk (sized_source [1; 2; 3; 4; 5; 6])
       even_unless_five [] []) w0 =
  (Ok (Yield 2 (Yield 4 (Raised (Exception "five")))), w0).
Proof.
  apply (@filter_propagates_predicate_failure unit Z
           (sized_source [1; 2; 3; 4; 5; 6]) even_unless_five [] []
           [1; 2; 3; 4; 5; 6] 5%nat 5 (Exception "five")
           (FilterIterDataPipe.mk (sized_source [1; 2; 3; 4; 5; 6])
              even_unless_five [] [])
           w0 w0 w0 w0).
  - reflexivity.
  - reflexivity.
  - lia.
  - reflexivity.
  - reflexivity.
  - simpl. intros y [<-|[<-|[<-|[<-|[]]]]]; eexists; reflexivity.
Defined.

(** C6 as the specification words it, for every position at which
    the predicate raises, fails when the predicate raises earlier as
    well: over [5, 2, 5] with a predicate that raises on 5, the third
    position would have 2 yielded first, and the traversal stops at
    the first position with nothing yielded. *)
Lemma filter_failure_not_at_every_position :
  exists g,
    FilterIterDataPipe.__iter__
      (FilterIterDataPipe.mk (sized_source [5; 2; 5]) even_unless_five [] [])
      w0 = (Ok g, w0) /\
    ~ failure_as_specified even_unless_five [] [] [5; 2; 5] 3 g.
Proof.
  eexists. split; [reflexivity|].
  intros Hspec.
  specialize (Hspec 5 (Exception "five") (le_S _ _ (le_S _ _ (le_n 1)))
                eq_refl eq_refl).
  discriminate Hspec.
Qed.

Lemma filter_iteration_restarts_witness :
  exists wa wb,
    FilterIterDataPipe.__iter__
      (FilterIterDataPipe.mk (sized_source [1; 2; 3; 4; 5; 6]) is_even [] [])
      w0 = (Ok (Yield 2 (Yield 4 (Yield 6 StopIteration))), wa) /\
    FilterIterDataPipe.__iter__
      (FilterIterDataPipe.mk (sized_source [1; 2; 3; 4; 5; 6]) is_even [] [])
      wa = (Ok (Yield 2 (Yield 4 (Yield 6 StopIteration))), wb).
Proof.
  destruct (@filter_iteration_restarts unit Z
              (sized_source [1; 2; 3; 4; 5; 6]) is_even [] [] [1; 2; 3; 4; 5; 6]
              (FilterIterDataPipe.mk (sized_source [1; 2; 3; 4; 5; 6])
                 is_even [] [])
              w0 w0 w0 eq_refl (fun w => ex_intro _ w eq_refl))
    as (wa & wb & H1 & H2 & _).
  exists wa, wb. split; [exact H1|exact H2].
Defined.

Lemma filter_idempotent_witness :
  let inner :=
    FilterIterDataPipe.mk (sized_source [1; 2; 3; 4; 5; 6]) is_even [] [] in
  let outer :=
    FilterIterDataPipe.mk (FilterIterDataPipe.as_datapipe inner) is_even [] [] in
  builtins.list_ (FilterIterDataPipe.as_datapipe outer) w0 =
  builtins.list_ (FilterIterDataPipe.as_datapipe inner) w0.
Proof.
  apply (@filter_idempotent unit Z
           (sized_source [1; 2; 3; 4; 5; 6]) is_even [] [] _ _ w0 w0 w0
           eq_refl eq_refl w0).
Defined.

(** ** Construction of the filter adapter *)

Section FilterInit.
Context {Heap T : Type}.

(** X1. For a predicate that has a [__name__], construction succeeds; the
    pickling warning is appended to the log when that name is
    ["<lambda>"], and the world is untouched otherwise. *)
Lemma filter_init_named
    (up : Iterable Heap T) (P : Callable T) args kwargs name (w : World Heap) :
  __name__ P = Some name ->
  FilterIterDataPipe.__init__ up args P kwargs w =
  (Ok (FilterIterDataPipe.mk up P args kwargs),
   if String.eqb name "<lambda>"
   then {| heap := heap w;
           warnings := warnings w ++
             ["Lambda function for `filter_fn` is not supported for pickle, please use regular python function instead."] |}
   else w).
Proof.
  intros Hname. unfold FilterIterDataPipe.__init__. run. rewrite Hname.
  destruct (String.eqb name "<lambda>"); reflexivity.
Qed.

(** C7. Construction over a callable that has no [__name__], such as
    [functools.partial(operator.lt, 3)], does not succeed: the lookup
    of [filter_fn.__name__] raises [AttributeError], whatever the
    upstream pipeline and the extra arguments, and no adapter is
    returned. *)
Theorem filter_init_partial_raises
    (up : Iterable Heap Z) args kwargs (w : World Heap) :
  FilterIterDataPipe.__init__ up args partial_lt_3 kwargs w =
  (Raise (AttributeError "object has no attribute '__name__'"), w).
Proof. reflexivity. Qed.

End FilterInit.

(** A lambda is warned about, a named function is not. *)
Lemma filter_init_lambda_warns :
  warnings (snd (FilterIterDataPipe.__init__
                   (sized_source [1; 2; 3]) [] lambda_gt_3 [] w0)) =
  ["Lambda function for `filter_fn` is not supported for pickle, please use regular python function instead."]
  /\
  warnings (snd (FilterIterDataPipe.__init__
                   (sized_source [1; 2; 3]) [] is_even [] w0)) = [].
Proof. split; reflexivity. Qed.

(** ** The sampler adapter *)

Section SamplerFacts.
Context {Heap T : Type}.
Implicit Types (self : SamplerIterDataPipe.t Heap T).

Lemma reports_sized (o : Iterable Heap T) r :
  reports o r -> builtins.isinstance_Sized o = true.
Proof.
  intros (f & Hf & _). unfold builtins.isinstance_Sized. rewrite Hf.
  reflexivity.
Qed.

(** What the built-in [len] makes of the answer of [__len__]. *)
Lemma len_of_reports (o : Iterable Heap T) r (w : World Heap) :
  reports o r ->
  builtins.len o w =
  match r with
  | Ok n =>
      if n <? 0
      then (Raise (ValueError "__len__() should return >= 0"), w)
      else if n >? builtins.sys_maxsize
      then (Raise (OverflowError
                     "cannot fit 'int' into an index-sized integer"), w)
      else (Ok n, w)
  | Raise e => (Raise e, w)
  end.
Proof.
  intros (f & Hf & Hpure). unfold builtins.len. rewrite Hf.
  unfold bind. rewrite Hpure.
  destruct r as [n|e]; [|reflexivity].
  destruct (n <? 0); [reflexivity|].
  destruct (n >? builtins.sys_maxsize); reflexivity.
Qed.

(** [len] returns numbers between 0 and [sys.maxsize] only. *)
Lemma len_in_range (o : Iterable Heap T) n (w w' : World Heap) :
  builtins.len o w = (Ok n, w') -> 0 <= n <= builtins.sys_maxsize.
Proof.
  unfold builtins.len, bind, ret, raise.
  destruct (sq_length o) as [f|]; [|discriminate].
  destruct (f w) as [[m|e] w1]; [|discriminate].
  destruct (m <? 0) eqn:Hneg; [discriminate|].
  destruct (m >? builtins.sys_maxsize) eqn:Hbig; [discriminate|].
  intros H. inversion H; subst.
  apply Z.ltb_ge in Hneg. rewrite Z.gtb_ltb in Hbig.
  apply Z.ltb_ge in Hbig. lia.
Qed.

Lemma len_reports_in_range (o : Iterable Heap T) n (w : World Heap) :
  reports o (Ok n) -> 0 <= n <= builtins.sys_maxsize ->
  builtins.len o w = (Ok n, w).
Proof.
  intros Hr [Hlo Hhi]. rewrite (len_of_reports w Hr).
  destruct (n <? 0) eqn:Hneg; [apply Z.ltb_lt in Hneg; lia|].
  destruct (n >? builtins.sys_maxsize) eqn:Hbig; [|reflexivity].
  rewrite Z.gtb_ltb in Hbig. apply Z.ltb_lt in Hbig. lia.
Qed.

(** The count of the adapter is [len] of its sampler whenever the
    sampler is [Sized] and its [__len__] only observes the world. *)
Lemma sampler_len_is_len self r (w : World Heap) :
  reports (SamplerIterDataPipe.sampler self) r ->
  SamplerIterDataPipe.__len__ self w =
  builtins.len (SamplerIterDataPipe.sampler self) w.
Proof.
  intros Hr. unfold SamplerIterDataPipe.__len__.
  rewrite (reports_sized Hr). unfold bind.
  destruct (builtins.len (SamplerIterDataPipe.sampler self) w)
    as [[n|e] w1] eqn:Hlen; [|reflexivity].
  pose proof (len_in_range _ _ Hlen) as [Hn _].
  apply Z.geb_le in Hn. rewrite Hn.
  rewrite (len_of_reports w Hr) in Hlen.
  assert (w1 = w) as ->.
  { destruct r as [m|e]; [|inversion Hlen; reflexivity].
    destruct (m <? 0); [inversion Hlen; reflexivity|].
    destruct (m >? builtins.sys_maxsize); inversion Hlen; reflexivity. }
  rewrite (len_of_reports w Hr). exact Hlen.
Qed.

(** X10. A negative answer of the sampler's [__len__] never reaches the
    comparison with zero: [len] itself rejects it. *)
Lemma sampler_len_negative_count self n (w : World Heap) :
  reports (SamplerIterDataPipe.sampler self) (Ok n) -> n < 0 ->
  SamplerIterDataPipe.__len__ self w =
  (Raise (ValueError "__len__() should return >= 0"), w).
Proof.
  intros Hr Hn. rewrite (sampler_len_is_len self w Hr).
  rewrite (len_of_reports w Hr).
  apply Z.ltb_lt in Hn. rewrite Hn. reflexivity.
Qed.

End SamplerFacts.

Section SamplerTheorems.
Context {Heap T : Type}.

(** C4, as the code has it.  Constructing a sampler adapter over an
    upstream pipeline whose class
    does not implement [__len__] raises [AssertionError] with the
    message that states the requirement, whatever the sampler class
    and the extra named arguments; the sampler class is not called and
    the world is left as it was. *)
Theorem sampler_init_requires_sized
    (up : Iterable Heap T) (sampler : option (SamplerClass Heap T))
    kwargs (w : World Heap) :
  builtins.isinstance_Sized up = false ->
  SamplerIterDataPipe.__init__ up sampler kwargs w =
  (Raise (AssertionError
            "Sampler class requires input datapipe implemented `__len__`"), w).
Proof.
  intros Hup. unfold SamplerIterDataPipe.__init__, assert, bind.
  rewrite Hup. reflexivity.
Qed.

(** C10. A sampler adapter that was constructed holds the instance
    [s] that the sampler class returned for the upstream pipeline as
    data source and the extra named arguments, and a traversal of the
    adapter is the traversal of [s], in every world: same elements,
    same order, same ending, same effect on the world; a loop that
    collects the one collects the other. *)
Theorem sampler_iter_delegates
    (up : Iterable Heap T) (sampler : option (SamplerClass Heap T))
    kwargs (self : SamplerIterDataPipe.t Heap T) (w w' : World Heap) :
  SamplerIterDataPipe.__init__ up sampler kwargs w = (Ok self, w') ->
  exists s,
    match sampler with Some cls => cls | None => SequentialSampler end
      up kwargs w = (Ok s, w') /\
    SamplerIterDataPipe.sampler self = s /\
    forall w1,
      SamplerIterDataPipe.__iter__ self w1 = builtins.iter s w1 /\
      builtins.comprehension (SamplerIterDataPipe.as_datapipe self) w1 =
      builtins.comprehension s w1.
Proof.
  unfold SamplerIterDataPipe.__init__, assert, bind.
  destruct (builtins.isinstance_Sized up); simpl; [|discriminate].
  destruct (match sampler with Some cls => cls | None => SequentialSampler end
              up kwargs w) as [[s|e] w1] eqn:Hcls; simpl; [|discriminate].
  intros H. inversion H; subst. exists s. repeat split.
Qed.

(** C5, as the code has it.  The count of a sampler adapter
    - raises [NotImplementedError] when the sampler does not implement
      [__len__];
    - is the sampler's count [n] when the sampler's [__len__] answers
      an [n] that is non-negative and at most [sys.maxsize];
    - raises what the sampler's [__len__] raises when that fails;
    - is a number only in the second case;
    - is the same for every adapter that holds the same sampler,
      whatever upstream pipeline it was given. *)
Theorem sampler_len_delegates
    (self : SamplerIterDataPipe.t Heap T) (w : World Heap) :
  (builtins.isinstance_Sized (SamplerIterDataPipe.sampler self) = false ->
   SamplerIterDataPipe.__len__ self w = (Raise NotImplementedError, w)) /\
  (forall n, 0 <= n <= builtins.sys_maxsize ->
   reports (SamplerIterDataPipe.sampler self) (Ok n) ->
   SamplerIterDataPipe.__len__ self w = (Ok n, w)) /\
  (forall e, reports (SamplerIterDataPipe.sampler self) (Raise e) ->
   SamplerIterDataPipe.__len__ self w = (Raise e, w)) /\
  (forall r n, reports (SamplerIterDataPipe.sampler self) r ->
   fst (SamplerIterDataPipe.__len__ self w) = Ok n ->
   r = Ok n /\ 0 <= n <= builtins.sys_maxsize) /\
  (forall up', SamplerIterDataPipe.__len__
                 (SamplerIterDataPipe.mk up' (SamplerIterDataPipe.sampler self)) w =
               SamplerIterDataPipe.__len__ self w).
Proof.
  split; [|split; [|split; [|split]]].
  - intros Hs. unfold SamplerIterDataPipe.__len__. rewrite Hs. reflexivity.
  - intros n Hn Hr. rewrite (sampler_len_is_len self w Hr).
    apply (len_reports_in_range w Hr Hn).
  - intros e Hr. rewrite (sampler_len_is_len self w Hr).
    apply (len_of_reports w Hr).
  - intros r n Hr. rewrite (sampler_len_is_len self w Hr).
    destruct (builtins.len (SamplerIterDataPipe.sampler self) w)
      as [[m|e] w1] eqn:Hlen; simpl; [|discriminate].
    intros Heq. inversion Heq; subst m.
    split; [|apply (len_in_range _ _ Hlen)].
    rewrite (len_of_reports w Hr) in Hlen.
    destruct r as [m|e]; [|discriminate].
    destruct (m <? 0); [discriminate|].
    destruct (m >? builtins.sys_maxsize); [discriminate|].
    inversion Hlen. reflexivity.
  - intros up'. reflexivity.
Qed.

(** C2.  Over an upstream pipeline that is the sequence [S] and whose
    count is [length S], a length that fits an index as every length
    does, constructing the sampler adapter with the sampler keyword
    left out succeeds; a traversal of the adapter yields the elements
    of [S] in the order of [S] and stops, and the count of the adapter
    is [length S]. *)
Theorem sampler_default_is_identity
    (up : Iterable Heap T) (S : list T) (w : World Heap) :
  is_sequence up S ->
  reports up (Ok (Z.of_nat (List.length S))) ->
  Z.of_nat (List.length S) <= builtins.sys_maxsize ->
  exists self,
    SamplerIterDataPipe.__init__ up None [] w = (Ok self, w) /\
    (forall w1, exists w2,
       SamplerIterDataPipe.__iter__ self w1 =
         (Ok (yield_from S StopIteration), w2) /\
       builtins.list_ (SamplerIterDataPipe.as_datapipe self) w1 = (Ok S, w2)) /\
    (forall w1,
       SamplerIterDataPipe.__len__ self w1 = (Ok (Z.of_nat (List.length S)), w1)).
Proof.
  intros Hseq Hlen Hfit.
  assert (Hrange : 0 <= Z.of_nat (List.length S) <= builtins.sys_maxsize)
    by lia.
  pose (s := {| tp_iter := builtins.iter up;
                sq_length := Some (builtins.len up) |}).
  assert (Hs : reports s (Ok (Z.of_nat (List.length S)))).
  { exists (builtins.len up). split; [reflexivity|].
    intros w'. apply (len_reports_in_range w' Hlen Hrange). }
  assert (Hcount : forall w1,
    SamplerIterDataPipe.__len__ (SamplerIterDataPipe.mk up s) w1 =
    (Ok (Z.of_nat (List.length S)), w1)).
  { intros w1.
    rewrite (sampler_len_is_len (SamplerIterDataPipe.mk up s) w1 Hs).
    apply (len_reports_in_range w1 Hs Hrange). }
  exists (SamplerIterDataPipe.mk up s). split; [|split].
  - unfold SamplerIterDataPipe.__init__, assert, bind.
    rewrite (reports_sized Hlen). reflexivity.
  - intros w1. destruct (Hseq w1) as [w2 Hw2]. exists w2.
    split; [exact Hw2|].
    assert (Hself : reports
              (SamplerIterDataPipe.as_datapipe (SamplerIterDataPipe.mk up s))
              (Ok (Z.of_nat (List.length S)))).
    { exists (SamplerIterDataPipe.__len__ (SamplerIterDataPipe.mk up s)).
      split; [reflexivity|exact Hcount]. }
    unfold builtins.list_, bind.
    change (builtins.iter (SamplerIterDataPipe.as_datapipe
                             (SamplerIterDataPipe.mk up s)) w1)
      with (builtins.iter up w1).
    rewrite Hw2. unfold builtins.length_hint.
    rewrite (len_reports_in_range w2 Hself Hrange). simpl.
    rewrite ending_yield_from, yielded_yield_from. simpl.
    rewrite app_nil_r. reflexivity.
  - exact Hcount.
Qed.

End SamplerTheorems.

(** ** The sampler adapter on concrete inputs *)

(** A source of five elements under the default sampler: same
    elements in the same order, count 5. *)
Lemma sampler_default_is_identity_witness :
  exists self,
    SamplerIterDataPipe.__init__ (sized_source [10; 20; 30; 40; 50]) None [] w0 =
      (Ok self, w0) /\
    (exists w2,
       builtins.list_ (SamplerIterDataPipe.as_datapipe self) w0 =
         (Ok [10; 20; 30; 40; 50], w2)) /\
    SamplerIterDataPipe.__len__ self w0 = (Ok 5, w0).
Proof.
  assert (Hfit : Z.of_nat (List.length [10; 20; 30; 40; 50]) <=
                 builtins.sys_maxsize)
    by (unfold builtins.sys_maxsize; simpl; lia).
  destruct (@sampler_default_is_identity unit Z
              (sized_source [10; 20; 30; 40; 50]) [10; 20; 30; 40; 50] w0
              (fun w => ex_intro _ w eq_refl)
              (ex_intro _ (ret 5) (conj eq_refl (fun w => eq_refl)))
              Hfit)
    as (self & Hinit & Htrav & Hlen).
  exists self. split; [exact Hinit|]. split; [|exact (Hlen w0)].
  destruct (Htrav w0) as (w2 & _ & Hlist). exists w2. exact Hlist.
Defined.

Lemma sampler_init_requires_sized_witness :
  SamplerIterDataPipe.__init__ (unsized_source [1; 2; 3]) None [] w0 =
  (Raise (AssertionError
            "Sampler class requires input datapipe implemented `__len__`"), w0).
Proof.
  apply (@sampler_init_requires_sized unit Z (unsized_source [1; 2; 3])
           None [] w0).
  reflexivity.
Defined.

(** C4 as the specification words it fails: a filter adapter has no
    count to give, its [len] raises in every world, and a sampler
    adapter is constructed over it all the same, because the class of
    the filter adapter implements [__len__]. *)
Lemma sampler_init_accepts_filter :
  let up : Iterable unit Z :=
    FilterIterDataPipe.as_datapipe
      (FilterIterDataPipe.mk (sized_source [1; 2; 3; 4; 5; 6]) is_even [] []) in
  (forall w, builtins.len up w = (Raise NotImplementedError, w)) /\
  (exists self,
     SamplerIterDataPipe.__init__ up (Some sampler_counting_source) [] w0 =
     (Ok self, w0)) /\
  ~ init_as_specified up (Some sampler_counting_source) [] w0.
Proof.
  intros up. split; [reflexivity|]. split; [eexists; reflexivity|].
  intros Hspec. destruct Hspec as [msg Hmsg]; [|discriminate Hmsg].
  intros n w'. discriminate.
Qed.

(** With a sampler that walks the source backwards, the adapter
    yields what that sampler yields. *)
Lemma sampler_iter_delegates_witness :
  exists self,
    SamplerIterDataPipe.__init__ (sized_source [1; 2; 3])
      (Some sampler_reversed) [] w0 = (Ok self, w0) /\
    SamplerIterDataPipe.__iter__ self w0 =
      builtins.iter (SamplerIterDataPipe.sampler self) w0 /\
    SamplerIterDataPipe.__iter__ self w0 =
      (Ok (Yield 3 (Yield 2 (Yield 1 StopIteration))), w0).
Proof.
  eexists. split; [reflexivity|].
  destruct (@sampler_iter_delegates unit Z (sized_source [1; 2; 3])
              (Some sampler_reversed) [] _ w0 w0 eq_refl)
    as (s & _ & Hs & Hall).
  split; [|reflexivity].
  rewrite Hs. apply Hall.
Defined.

Lemma sampler_len_delegates_witness :
  let up : Iterable unit Z := sized_source [1; 2; 3] in
  let s := {| tp_iter := builtins.iter up;
              sq_length := Some (builtins.len up) |} in
  SamplerIterDataPipe.__len__ (SamplerIterDataPipe.mk up s) w0 = (Ok 3, w0) /\
  SamplerIterDataPipe.__len__
    (SamplerIterDataPipe.mk up (unsized_source [1; 2; 3])) w0 =
    (Raise NotImplementedError, w0).
Proof.
  intros up s. split.
  - apply (proj1 (proj2 (@sampler_len_delegates unit Z
                           (SamplerIterDataPipe.mk up s) w0)) 3).
    + unfold builtins.sys_maxsize. lia.
    + exists (builtins.len up). split; [reflexivity|].
      intros w. reflexivity.
  - apply (proj1 (@sampler_len_delegates unit Z
                    (SamplerIterDataPipe.mk up (unsized_source [1; 2; 3])) w0)).
    reflexivity.
Defined.

(** C5 as the specification words it fails: a sampler that implements
    [__len__] by raising [TypeError] has no count to report, and the
    count of the adapter raises that [TypeError], not
    [NotImplementedError]. *)
Lemma sampler_len_not_as_specified :
  exists self : SamplerIterDataPipe.t unit Z,
    SamplerIterDataPipe.__init__ (sized_source [1; 2; 3])
      (Some sampler_len_raises) [] w0 = (Ok self, w0) /\
    SamplerIterDataPipe.__len__ self w0 =
      (Raise (TypeError "object has no len()"), w0) /\
    ~ count_as_specified self w0.
Proof.
  eexists. split; [reflexivity|]. split; [reflexivity|].
  intros [_ Hother].
  enough (Hnl : fst (Raise (TypeError "object has no len()"), w0) =
                @Raise Z NotImplementedError) by discriminate Hnl.
  apply Hother.
  intros n (_ & f & Hf & Hpure). simpl in Hf. inversion Hf; subst f.
  specialize (Hpure w0). discriminate Hpure.
Qed.

(** A sampler without [__len__]: the traversal is delegated all the
    same, the count is not implemented. *)
Lemma sampler_unsized_example :
  exists self : SamplerIterDataPipe.t unit Z,
    SamplerIterDataPipe.__init__ (sized_source [1; 2; 3])
      (Some sampler_unsized) [] w0 = (Ok self, w0) /\
    builtins.comprehension (SamplerIterDataPipe.as_datapipe self) w0 =
      (Ok [1; 2; 3], w0) /\
    SamplerIterDataPipe.__len__ self w0 = (Raise NotImplementedError, w0).
Proof. eexists. repeat split. Qed.

(** A filter adapter implements [__len__], by raising: it passes the
    [Sized] test of the sampler adapter, and the count of the sampler
    adapter built over it with the default sampler raises the
    [NotImplementedError] of the filter. *)
Lemma sampler_over_filter_example :
  let filtered :=
    FilterIterDataPipe.as_datapipe
      (FilterIterDataPipe.mk (sized_source [1; 2; 3; 4; 5; 6]) is_even [] []) in
  exists self : SamplerIterDataPipe.t unit Z,
    SamplerIterDataPipe.__init__ filtered None [] w0 = (Ok self, w0) /\
    builtins.comprehension (SamplerIterDataPipe.as_datapipe self) w0 =
      (Ok [2; 4; 6], w0) /\
    SamplerIterDataPipe.__len__ self w0 = (Raise NotImplementedError, w0).
Proof. eexists. repeat split. Qed.

(** ** Further properties of the filter adapter *)

Section GeneratorFacts.
Context {Heap T : Type}.
Implicit Types (self : FilterIterDataPipe.t Heap T) (it : Iterator T).

(** What the generator yields: the passing elements among those in
    front of the first element on which the predicate raises. *)
Lemma generator_yielded self it :
  builtins.yielded (FilterIterDataPipe.generator self it) =
  filter (passes (FilterIterDataPipe.filter_fn self)
            (FilterIterDataPipe.args self) (FilterIterDataPipe.kwargs self))
    (leading (answers (FilterIterDataPipe.filter_fn self)
                (FilterIterDataPipe.args self) (FilterIterDataPipe.kwargs self))
       (builtins.yielded it)).
Proof.
  induction it as [|e|data rest IH]; simpl; try reflexivity.
  unfold answers, passes in *.
  destruct (__call__ (FilterIterDataPipe.filter_fn self) data
              (FilterIterDataPipe.args self) (FilterIterDataPipe.kwargs self))
    as [v|e] eqn:Hcall; simpl; [|reflexivity].
  rewrite Hcall. destruct (truthy v); simpl; rewrite IH; reflexivity.
Qed.

(** How the generator ends: with the first failure of the predicate,
    and as the upstream traversal ends when there is none. *)
Lemma generator_ending self it :
  builtins.ending (FilterIterDataPipe.generator self it) =
  match first_failure (FilterIterDataPipe.filter_fn self)
          (FilterIterDataPipe.args self) (FilterIterDataPipe.kwargs self)
          (builtins.yielded it) with
  | Some e => Some e
  | None => builtins.ending it
  end.
Proof.
  induction it as [|e|data rest IH]; simpl; try reflexivity.
  destruct (__call__ (FilterIterDataPipe.filter_fn self) data
              (FilterIterDataPipe.args self) (FilterIterDataPipe.kwargs self))
    as [v|e]; simpl; [|reflexivity].
  destruct (truthy v); simpl; exact IH.
Qed.

(** The generator is the identity on a traversal whose elements all
    pass. *)
Lemma generator_all_pass self it :
  Forall (fun x => passes (FilterIterDataPipe.filter_fn self)
                     (FilterIterDataPipe.args self)
                     (FilterIterDataPipe.kwargs self) x = true)
    (builtins.yielded it) ->
  FilterIterDataPipe.generator self it = it.
Proof.
  induction it as [|e|data rest IH]; simpl; intros Hall; try reflexivity.
  inversion Hall as [|? ? Hx Hrest]; subst. unfold passes in Hx.
  destruct (__call__ (FilterIterDataPipe.filter_fn self) data
              (FilterIterDataPipe.args self) (FilterIterDataPipe.kwargs self))
    as [v|e]; [|discriminate].
  rewrite Hx, (IH Hrest). reflexivity.
Qed.

Lemma iter_of_filter self (w : World Heap) it (w' : World Heap) :
  builtins.iter (FilterIterDataPipe.datapipe self) w = (Ok it, w') ->
  FilterIterDataPipe.__iter__ self w =
  (Ok (FilterIterDataPipe.generator self it), w').
Proof.
  intros Hup. unfold FilterIterDataPipe.__iter__. rewrite Hup. reflexivity.
Qed.

Lemma list_of_filter self (w : World Heap) it (w' : World Heap) :
  builtins.iter (FilterIterDataPipe.datapipe self) w = (Ok it, w') ->
  builtins.comprehension (FilterIterDataPipe.as_datapipe self) w =
  match builtins.ending (FilterIterDataPipe.generator self it) with
  | None => (Ok (builtins.yielded (FilterIterDataPipe.generator self it)), w')
  | Some e => (Raise e, w')
  end.
Proof.
  intros Hup. unfold builtins.comprehension, bind.
  change (builtins.iter (FilterIterDataPipe.as_datapipe self) w)
    with (FilterIterDataPipe.__iter__ self w).
  rewrite (iter_of_filter self w Hup).
  destruct (builtins.ending _); reflexivity.
Qed.

End GeneratorFacts.

Section FilterExtras.
Context {Heap T : Type}.
Implicit Types (self : FilterIterDataPipe.t Heap T) (it : Iterator T).

(** X2. Whatever the upstream traversal and the predicate, a traversal
    of the filter adapter yields the passing elements among the
    upstream elements in front of the first one on which the predicate
    raises; it ends with what the predicate raised there, and as the
    upstream traversal ends when the predicate raises nowhere. *)
Theorem filter_traversal_characterised self (w : World Heap) it (w' : World Heap) :
  builtins.iter (FilterIterDataPipe.datapipe self) w = (Ok it, w') ->
  exists g,
    FilterIterDataPipe.__iter__ self w = (Ok g, w') /\
    builtins.yielded g =
      filter (passes (FilterIterDataPipe.filter_fn self)
                (FilterIterDataPipe.args self) (FilterIterDataPipe.kwargs self))
        (leading (answers (FilterIterDataPipe.filter_fn self)
                    (FilterIterDataPipe.args self)
                    (FilterIterDataPipe.kwargs self))
           (builtins.yielded it)) /\
    builtins.ending g =
      match first_failure (FilterIterDataPipe.filter_fn self)
              (FilterIterDataPipe.args self) (FilterIterDataPipe.kwargs self)
              (builtins.yielded it) with
      | Some e => Some e
      | None => builtins.ending it
      end.
Proof.
  intros Hup. exists (FilterIterDataPipe.generator self it).
  split; [apply (iter_of_filter self w Hup)|].
  split; [apply generator_yielded|apply generator_ending].
Qed.

(** X3. Asking a filter adapter for a traversal does not raise when
    [iter] of the upstream pipeline raises [e]: the traversal the
    adapter returns yields nothing and raises [e] at the first
    [next], so a loop over the adapter raises [e]. *)
Theorem filter_defers_upstream_iter_failure self (w : World Heap) e (w' : World Heap) :
  builtins.iter (FilterIterDataPipe.datapipe self) w = (Raise e, w') ->
  fst (FilterIterDataPipe.__iter__ self w) = Ok (Raised e) /\
  fst (builtins.comprehension (FilterIterDataPipe.as_datapipe self) w) =
    Raise e.
Proof.
  intros Hup.
  assert (Hiter : FilterIterDataPipe.__iter__ self w = (Ok (Raised e), w'))
    by (unfold FilterIterDataPipe.__iter__; rewrite Hup; reflexivity).
  split; [rewrite Hiter; reflexivity|].
  unfold builtins.comprehension, bind.
  change (builtins.iter (FilterIterDataPipe.as_datapipe self) w)
    with (FilterIterDataPipe.__iter__ self w).
  rewrite Hiter. reflexivity.
Qed.

(** X4. When the upstream traversal yields [S] and then fails with
    [e], and the predicate answers on every element of [S], the
    traversal of the filter adapter yields the passing elements of
    [S] in order and then fails with the same [e]; a loop that
    collects the traversal raises [e]. *)
Theorem filter_propagates_upstream_failure self (w : World Heap)
    (S : list T) e (w' : World Heap) :
  builtins.iter (FilterIterDataPipe.datapipe self) w =
    (Ok (yield_from S (Raised e)), w') ->
  (forall x, In x S -> exists v,
     __call__ (FilterIterDataPipe.filter_fn self) x
       (FilterIterDataPipe.args self) (FilterIterDataPipe.kwargs self) = Ok v) ->
  FilterIterDataPipe.__iter__ self w =
    (Ok (yield_from
           (filter (passes (FilterIterDataPipe.filter_fn self)
                      (FilterIterDataPipe.args self)
                      (FilterIterDataPipe.kwargs self)) S)
           (Raised e)), w') /\
  builtins.comprehension (FilterIterDataPipe.as_datapipe self) w = (Raise e, w').
Proof.
  intros Hup Hans.
  assert (Hgen : FilterIterDataPipe.generator self (yield_from S (Raised e)) =
                 yield_from
                   (filter (passes (FilterIterDataPipe.filter_fn self)
                              (FilterIterDataPipe.args self)
                              (FilterIterDataPipe.kwargs self)) S)
                   (Raised e))
    by (rewrite generator_yield_from by exact Hans; reflexivity).
  split.
  - rewrite (iter_of_filter self w Hup), Hgen. reflexivity.
  - rewrite (list_of_filter self w Hup), Hgen, ending_yield_from.
    reflexivity.
Qed.

(** X5. A loop that collects the traversal of a filter adapter,
    [[x for x in adapter]], returns a list exactly when the
    upstream traversal ends normally and the predicate raises on none
    of the upstream elements; the list is then the passing elements
    of the upstream traversal. *)
Theorem filter_list_returns_iff self (w : World Heap) it (w' : World Heap) :
  builtins.iter (FilterIterDataPipe.datapipe self) w = (Ok it, w') ->
  forall l,
    builtins.comprehension (FilterIterDataPipe.as_datapipe self) w = (Ok l, w') <->
    (builtins.ending it = None /\
     first_failure (FilterIterDataPipe.filter_fn self)
       (FilterIterDataPipe.args self) (FilterIterDataPipe.kwargs self)
       (builtins.yielded it) = None /\
     l = filter (passes (FilterIterDataPipe.filter_fn self)
                   (FilterIterDataPipe.args self)
                   (FilterIterDataPipe.kwargs self))
           (builtins.yielded it)).
Proof.
  intros Hup l. rewrite (list_of_filter self w Hup).
  rewrite generator_ending, generator_yielded.
  assert (Hlead : forall items,
    first_failure (FilterIterDataPipe.filter_fn self)
      (FilterIterDataPipe.args self) (FilterIterDataPipe.kwargs self) items = None ->
    leading (answers (FilterIterDataPipe.filter_fn self)
               (FilterIterDataPipe.args self) (FilterIterDataPipe.kwargs self))
      items = items).
  { induction items as [|x items IH]; simpl; [reflexivity|].
    unfold answers at 1.
    destruct (__call__ (FilterIterDataPipe.filter_fn self) x
                (FilterIterDataPipe.args self) (FilterIterDataPipe.kwargs self));
      [|discriminate].
    intros Hnone. rewrite (IH Hnone). reflexivity. }
  destruct (first_failure _ _ _ _) as [e|] eqn:Hff.
  - split; [discriminate|]. intros (_ & Hcontra & _). discriminate.
  - rewrite (Hlead _ Hff).
    destruct (builtins.ending it) as [e|].
    + split; [discriminate|]. intros (Hcontra & _). discriminate.
    + split.
      * intros H. inversion H. repeat split.
      * intros (_ & _ & ->). reflexivity.
Qed.

(** X6. A filter whose predicate is truthy on every element of the
    upstream traversal is transparent: its traversal is the upstream
    traversal itself, with the same ending. *)
Theorem filter_transparent_when_all_pass self (w : World Heap) it (w' : World Heap) :
  builtins.iter (FilterIterDataPipe.datapipe self) w = (Ok it, w') ->
  Forall (fun x => passes (FilterIterDataPipe.filter_fn self)
                     (FilterIterDataPipe.args self)
                     (FilterIterDataPipe.kwargs self) x = true)
    (builtins.yielded it) ->
  FilterIterDataPipe.__iter__ self w = (Ok it, w').
Proof.
  intros Hup Hall. rewrite (iter_of_filter self w Hup).
  rewrite (generator_all_pass self it Hall). reflexivity.
Qed.

(** X13. [list] of a filter adapter raises [NotImplementedError],
    whatever the upstream pipeline and the predicate: once [__iter__]
    has returned, [list] asks the adapter for its length, [__len__]
    raises, and only a [TypeError] would have been passed over. *)
Theorem filter_list_not_implemented self (w : World Heap) :
  fst (builtins.list_ (FilterIterDataPipe.as_datapipe self) w) =
  Raise NotImplementedError.
Proof. rewrite list_filter_raises. reflexivity. Qed.

End FilterExtras.

Section FilterComposition.
Context {Heap T : Type}.

Lemma filter_twice (p q : T -> bool) (S : list T) :
  filter q (filter p S) = filter (fun x => p x && q x) S.
Proof.
  induction S as [|x S IH]; simpl; [reflexivity|].
  destruct (p x); simpl; [destruct (q x)|]; rewrite IH; reflexivity.
Qed.

Lemma iter_filter_of_filter (up : Iterable Heap T) (P Q : Callable T)
    a1 k1 a2 k2 (S : list T) (w w' : World Heap) :
  builtins.iter up w = (Ok (yield_from S StopIteration), w') ->
  (forall x, In x S -> exists v, __call__ P x a1 k1 = Ok v) ->
  (forall x, In x S -> exists v, __call__ Q x a2 k2 = Ok v) ->
  FilterIterDataPipe.__iter__
    (FilterIterDataPipe.mk
       (FilterIterDataPipe.as_datapipe (FilterIterDataPipe.mk up P a1 k1))
       Q a2 k2) w =
  (Ok (yield_from
         (filter (fun x => passes P a1 k1 x && passes Q a2 k2 x) S)
         StopIteration), w').
Proof.
  intros Hup HP HQ.
  assert (Hinner :
    builtins.iter
      (FilterIterDataPipe.as_datapipe (FilterIterDataPipe.mk up P a1 k1)) w =
    (Ok (yield_from (filter (passes P a1 k1) S) StopIteration), w')).
  { change (builtins.iter (FilterIterDataPipe.as_datapipe
                             (FilterIterDataPipe.mk up P a1 k1)) w)
      with (FilterIterDataPipe.__iter__ (FilterIterDataPipe.mk up P a1 k1) w).
    rewrite (iter_of_filter (FilterIterDataPipe.mk up P a1 k1) w Hup).
    rewrite generator_yield_from by exact HP. reflexivity. }
  rewrite (iter_of_filter
             (FilterIterDataPipe.mk
                (FilterIterDataPipe.as_datapipe (FilterIterDataPipe.mk up P a1 k1))
                Q a2 k2) w Hinner).
  rewrite generator_yield_from.
  - simpl. rewrite filter_twice. reflexivity.
  - simpl. intros x Hx. apply filter_In in Hx. apply HQ, Hx.
Qed.

(** X7. Two filter adapters stacked over an upstream sequence [S], with
    predicates that both answer on every element of [S], yield the
    elements of [S] that pass both predicates, in the order of [S];
    the order in which the two filters are stacked makes no
    difference. *)
Theorem filter_composition (up : Iterable Heap T) (P Q : Callable T)
    a1 k1 a2 k2 (S : list T) (w w' : World Heap) :
  builtins.iter up w = (Ok (yield_from S StopIteration), w') ->
  (forall x, In x S -> exists v, __call__ P x a1 k1 = Ok v) ->
  (forall x, In x S -> exists v, __call__ Q x a2 k2 = Ok v) ->
  let P_then_Q :=
    FilterIterDataPipe.mk
      (FilterIterDataPipe.as_datapipe (FilterIterDataPipe.mk up P a1 k1))
      Q a2 k2 in
  let Q_then_P :=
    FilterIterDataPipe.mk
      (FilterIterDataPipe.as_datapipe (FilterIterDataPipe.mk up Q a2 k2))
      P a1 k1 in
  FilterIterDataPipe.__iter__ P_then_Q w =
    (Ok (yield_from
           (filter (fun x => passes P a1 k1 x && passes Q a2 k2 x) S)
           StopIteration), w') /\
  FilterIterDataPipe.__iter__ Q_then_P w =
    FilterIterDataPipe.__iter__ P_then_Q w.
Proof.
  intros Hup HP HQ P_then_Q Q_then_P. subst P_then_Q Q_then_P.
  rewrite (@iter_filter_of_filter up P Q a1 k1 a2 k2 S w w' Hup HP HQ).
  split; [reflexivity|].
  rewrite (@iter_filter_of_filter up Q P a2 k2 a1 k1 S w w' Hup HQ HP).
  f_equal. f_equal. f_equal. apply filter_ext. intros x. apply andb_comm.
Qed.

End FilterComposition.

(** ** Further properties of the sampler adapter *)

Section SamplerExtras.
Context {Heap T : Type}.
Implicit Types (self : SamplerIterDataPipe.t Heap T).

(** X8. Over an upstream pipeline that implements [__len__], what the
    sampler class raises when it is called with the pipeline and the
    extra named arguments is what the construction of the adapter
    raises, in the world the class left behind. *)
Theorem sampler_init_propagates_class_failure
    (up : Iterable Heap T) (cls : SamplerClass Heap T)
    kwargs e (w w' : World Heap) :
  builtins.isinstance_Sized up = true ->
  cls up kwargs w = (Raise e, w') ->
  SamplerIterDataPipe.__init__ up (Some cls) kwargs w = (Raise e, w').
Proof.
  intros Hup Hcls. unfold SamplerIterDataPipe.__init__, assert, bind.
  rewrite Hup. simpl. rewrite Hcls. reflexivity.
Qed.

(** X9. The count of the adapter consults [__len__] of the sampler
    twice: when the first answer is a number [len] accepts, the count
    returned is the second answer, if [len] accepts it too, given in
    the world the first consultation left behind, and both
    consultations leave their mark on the world. *)
Theorem sampler_len_consults_twice self (__len__ : M Heap Z)
    n m (w w1 w2 : World Heap) :
  sq_length (SamplerIterDataPipe.sampler self) = Some __len__ ->
  __len__ w = (Ok n, w1) -> 0 <= n <= builtins.sys_maxsize ->
  __len__ w1 = (Ok m, w2) -> 0 <= m <= builtins.sys_maxsize ->
  SamplerIterDataPipe.__len__ self w = (Ok m, w2).
Proof.
  intros Hs H1 Hn H2 Hm.
  assert (Hlen : forall k u u', __len__ u = (Ok k, u') ->
                 0 <= k <= builtins.sys_maxsize ->
                 builtins.len (SamplerIterDataPipe.sampler self) u = (Ok k, u')).
  { intros k u u' Hk [Hlo Hhi]. unfold builtins.len, bind.
    rewrite Hs, Hk.
    destruct (k <? 0) eqn:Hneg; [apply Z.ltb_lt in Hneg; lia|].
    destruct (k >? builtins.sys_maxsize) eqn:Hbig; [|reflexivity].
    rewrite Z.gtb_ltb in Hbig. apply Z.ltb_lt in Hbig. lia. }
  unfold SamplerIterDataPipe.__len__, builtins.isinstance_Sized, bind.
  rewrite Hs, (Hlen n w w1 H1 Hn).
  destruct Hn as [Hn _]. apply Z.geb_le in Hn. rewrite Hn.
  apply (Hlen m w1 w2 H2 Hm).
Qed.

(** X11. Whatever the sampler, a count that the adapter returns is
    non-negative. *)
Theorem sampler_len_nonneg self n (w : World Heap) :
  fst (SamplerIterDataPipe.__len__ self w) = Ok n -> 0 <= n.
Proof.
  unfold SamplerIterDataPipe.__len__, builtins.isinstance_Sized, bind.
  destruct (sq_length (SamplerIterDataPipe.sampler self)) as [f|];
    [|discriminate].
  destruct (builtins.len (SamplerIterDataPipe.sampler self) w)
    as [[n1|e1] w1]; [|discriminate].
  destruct (n1 >=? 0); [|discriminate].
  destruct (builtins.len (SamplerIterDataPipe.sampler self) w1)
    as [[n2|e2] w2] eqn:Hlen; [|discriminate].
  simpl. intros H. inversion H; subst.
  apply (len_in_range _ _ Hlen).
Qed.

(** X12. A filter adapter passes the [Sized] test of the sampler
    adapter, because its class implements [__len__]: construction
    over it succeeds with any sampler class that accepts it.  When
    the sampler counts by taking [len] of its data source, the count
    of the sampler adapter raises the [NotImplementedError] of the
    filter adapter. *)
Theorem sampler_over_filter_count
    (filtered : FilterIterDataPipe.t Heap T) (cls : SamplerClass Heap T)
    kwargs (s : Iterable Heap T) (w w' : World Heap) :
  cls (FilterIterDataPipe.as_datapipe filtered) kwargs w = (Ok s, w') ->
  sq_length s = Some (builtins.len (FilterIterDataPipe.as_datapipe filtered)) ->
  SamplerIterDataPipe.__init__ (FilterIterDataPipe.as_datapipe filtered)
    (Some cls) kwargs w =
    (Ok (SamplerIterDataPipe.mk (FilterIterDataPipe.as_datapipe filtered) s), w') /\
  forall w1,
    SamplerIterDataPipe.__len__
      (SamplerIterDataPipe.mk (FilterIterDataPipe.as_datapipe filtered) s) w1 =
    (Raise NotImplementedError, w1).
Proof.
  intros Hcls Hs. split.
  - unfold SamplerIterDataPipe.__init__, assert, bind. simpl.
    rewrite Hcls. reflexivity.
  - intros w1.
    unfold SamplerIterDataPipe.__len__, builtins.isinstance_Sized, bind.
    simpl. rewrite Hs.
    unfold builtins.len at 1. rewrite Hs. reflexivity.
Qed.

(** X14. [list] of a sampler adapter whose sampler does not
    implement [__len__] raises [NotImplementedError] once the
    traversal has been obtained, although the traversal itself is
    sound and [list] of the sampler returns what a loop over it
    collects. *)
Theorem sampler_list_needs_sized_sampler self (w : World Heap) it
    (w' : World Heap) :
  builtins.isinstance_Sized (SamplerIterDataPipe.sampler self) = false ->
  builtins.iter (SamplerIterDataPipe.sampler self) w = (Ok it, w') ->
  fst (builtins.list_ (SamplerIterDataPipe.as_datapipe self) w) =
    Raise NotImplementedError /\
  builtins.list_ (SamplerIterDataPipe.sampler self) w =
    builtins.comprehension (SamplerIterDataPipe.sampler self) w.
Proof.
  intros Hs Hit. unfold builtins.isinstance_Sized in Hs.
  destruct (sq_length (SamplerIterDataPipe.sampler self)) as [f|] eqn:Hsq;
    [discriminate|].
  split.
  - unfold builtins.list_, bind.
    change (builtins.iter (SamplerIterDataPipe.as_datapipe self) w)
      with (builtins.iter (SamplerIterDataPipe.sampler self) w).
    rewrite Hit. unfold builtins.length_hint, builtins.len, bind. simpl.
    unfold SamplerIterDataPipe.__len__, builtins.isinstance_Sized.
    rewrite Hsq. reflexivity.
  - unfold builtins.list_, builtins.comprehension, bind.
    rewrite Hit. unfold builtins.length_hint. rewrite Hsq. reflexivity.
Qed.

(** X15. An answer of the sampler's [__len__] above [sys.maxsize] is
    rejected by [len] as well: the count of the adapter raises
    [OverflowError]. *)
Theorem sampler_len_overflow_count self n (w : World Heap) :
  reports (SamplerIterDataPipe.sampler self) (Ok n) ->
  builtins.sys_maxsize < n ->
  SamplerIterDataPipe.__len__ self w =
  (Raise (OverflowError "cannot fit 'int' into an index-sized integer"), w).
Proof.
  intros Hr Hn. rewrite (sampler_len_is_len self w Hr).
  rewrite (len_of_reports w Hr).
  assert (Hpos : 0 <= builtins.sys_maxsize)
    by (unfold builtins.sys_maxsize; lia).
  destruct (n <? 0) eqn:Hneg; [apply Z.ltb_lt in Hneg; lia|].
  destruct (n >? builtins.sys_maxsize) eqn:Hbig; [reflexivity|].
  rewrite Z.gtb_ltb in Hbig. apply Z.ltb_ge in Hbig. lia.
Qed.

End SamplerExtras.

(** ** The further properties on concrete inputs *)

Lemma filter_init_named_witness :
  FilterIterDataPipe.__init__ (sized_source [1; 2; 3]) [] lambda_gt_3 [] w0 =
  (Ok (FilterIterDataPipe.mk (sized_source [1; 2; 3]) lambda_gt_3 [] []),
   {| heap := tt;
      warnings :=
        ["Lambda function for `filter_fn` is not supported for pickle, please use regular python function instead."] |}).
Proof.
  exact (@filter_init_named unit Z (sized_source [1; 2; 3]) lambda_gt_3 [] []
           "<lambda>" w0 eq_refl).
Defined.

Lemma filter_traversal_characterised_witness :
  exists g,
    FilterIterDataPipe.__iter__
      (FilterIterDataPipe.mk (sized_source [1; 2; 3; 4; 5; 6])
         even_unless_five [] []) w0 = (Ok g, w0) /\
    builtins.yielded g = [2; 4] /\
    builtins.ending g = Some (Exception "five").
Proof.
  exact (@filter_traversal_characterised unit Z
           (FilterIterDataPipe.mk (sized_source [1; 2; 3; 4; 5; 6])
              even_unless_five [] [])
           w0 (yield_from [1; 2; 3; 4; 5; 6] StopIteration) w0 eq_refl).
Defined.

Lemma filter_defers_upstream_iter_failure_witness :
  fst (FilterIterDataPipe.__iter__
         (FilterIterDataPipe.mk (broken_source (Exception "closed"))
            is_even [] []) w0) = Ok (Raised (Exception "closed")) /\
  fst (builtins.comprehension
         (FilterIterDataPipe.as_datapipe
            (FilterIterDataPipe.mk (broken_source (Exception "closed"))
               is_even [] [])) w0) = Raise (Exception "closed").
Proof.
  exact (@filter_defers_upstream_iter_failure unit Z
           (FilterIterDataPipe.mk (broken_source (Exception "closed"))
              is_even [] [])
           w0 (Exception "closed") w0 eq_refl).
Defined.

Lemma filter_propagates_upstream_failure_witness :
  FilterIterDataPipe.__iter__
    (FilterIterDataPipe.mk
       (failing_source [1; 2; 3; 4] (Exception "broken pipe")) is_even [] [])
    w0 = (Ok (Yield 2 (Yield 4 (Raised (Exception "broken pipe")))), w0).
Proof.
  apply (@filter_propagates_upstream_failure unit Z
           (FilterIterDataPipe.mk
              (failing_source [1; 2; 3; 4] (Exception "broken pipe"))
              is_even [] [])
           w0 [1; 2; 3; 4] (Exception "broken pipe") w0 eq_refl).
  intros x _. eexists. reflexivity.
Defined.

Lemma filter_list_returns_iff_witness :
  builtins.comprehension
    (FilterIterDataPipe.as_datapipe
       (FilterIterDataPipe.mk (sized_source [1; 2; 3; 4; 5; 6]) is_even [] []))
    w0 = (Ok [2; 4; 6], w0).
Proof.
  apply (proj2 (@filter_list_returns_iff unit Z
                  (FilterIterDataPipe.mk (sized_source [1; 2; 3; 4; 5; 6])
                     is_even [] [])
                  w0 (yield_from [1; 2; 3; 4; 5; 6] StopIteration) w0 eq_refl
                  [2; 4; 6])).
  repeat split.
Defined.

(** [FilterIterDataPipe(S, 0, filter_fn=gt)] over positive numbers. *)
Lemma filter_transparent_when_all_pass_witness :
  FilterIterDataPipe.__iter__
    (FilterIterDataPipe.mk (sized_source [1; 2; 3]) gt [PyInt 0] []) w0 =
  (Ok (Yield 1 (Yield 2 (Yield 3 StopIteration))), w0).
Proof.
  apply (@filter_transparent_when_all_pass unit Z
           (FilterIterDataPipe.mk (sized_source [1; 2; 3]) gt [PyInt 0] [])
           w0 (yield_from [1; 2; 3] StopIteration) w0 eq_refl).
  repeat constructor.
Defined.

(** The even numbers above 3 among 1..6, with the filters in either
    order. *)
Lemma filter_composition_witness :
  let up : Iterable unit Z := sized_source [1; 2; 3; 4; 5; 6] in
  FilterIterDataPipe.__iter__
    (FilterIterDataPipe.mk
       (FilterIterDataPipe.as_datapipe (FilterIterDataPipe.mk up is_even [] []))
       gt [PyInt 3] []) w0 =
    (Ok (Yield 4 (Yield 6 StopIteration)), w0) /\
  FilterIterDataPipe.__iter__
    (FilterIterDataPipe.mk
       (FilterIterDataPipe.as_datapipe
          (FilterIterDataPipe.mk up gt [PyInt 3] []))
       is_even [] []) w0 =
  FilterIterDataPipe.__iter__
    (FilterIterDataPipe.mk
       (FilterIterDataPipe.as_datapipe (FilterIterDataPipe.mk up is_even [] []))
       gt [PyInt 3] []) w0.
Proof.
  intros up.
  apply (@filter_composition unit Z up is_even gt [] [] [PyInt 3] []
           [1; 2; 3; 4; 5; 6] w0 w0 eq_refl).
  - intros x _. eexists. reflexivity.
  - intros x _. eexists. reflexivity.
Defined.

Lemma sampler_init_propagates_class_failure_witness :
  SamplerIterDataPipe.__init__ (sized_source [1; 2; 3])
    (Some sampler_rejecting) [("shuffle", PyBool true)] w0 =
  (Raise (TypeError "__init__() got an unexpected keyword argument"), w0).
Proof.
  apply (@sampler_init_propagates_class_failure unit Z
           (sized_source [1; 2; 3]) sampler_rejecting
           [("shuffle", PyBool true)]
           (TypeError "__init__() got an unexpected keyword argument") w0 w0);
    reflexivity.
Defined.

(** A sampler that counts its consultations: the adapter returns the
    second answer and the counter stands at two. *)
Lemma sampler_len_consults_twice_witness :
  let up : Iterable Z Z := sized_source [1; 2; 3] in
  let count : M Z Z := fun w =>
    (Ok (heap w), {| heap := heap w + 1; warnings := warnings w |}) in
  SamplerIterDataPipe.__len__
    (SamplerIterDataPipe.mk up
       {| tp_iter := builtins.iter up; sq_length := Some count |})
    {| heap := 0; warnings := [] |} =
  (Ok 1, {| heap := 2; warnings := [] |}).
Proof.
  intros up count.
  apply (@sampler_len_consults_twice Z Z
           (SamplerIterDataPipe.mk up
              {| tp_iter := builtins.iter up; sq_length := Some count |})
           count 0 1
           {| heap := 0; warnings := [] |}
           {| heap := 1; warnings := [] |}
           {| heap := 2; warnings := [] |});
    try reflexivity; unfold builtins.sys_maxsize; lia.
Defined.

Lemma sampler_len_negative_count_witness :
  let up : Iterable unit Z := sized_source [1; 2; 3] in
  SamplerIterDataPipe.__len__
    (SamplerIterDataPipe.mk up
       {| tp_iter := builtins.iter up; sq_length := Some (ret (-1)) |}) w0 =
  (Raise (ValueError "__len__() should return >= 0"), w0).
Proof.
  intros up.
  apply (@sampler_len_negative_count unit Z
           (SamplerIterDataPipe.mk up
              {| tp_iter := builtins.iter up; sq_length := Some (ret (-1)) |})
           (-1) w0).
  - exists (ret (-1)). split; [reflexivity|]. intros w. reflexivity.
  - lia.
Defined.

Lemma sampler_len_nonneg_witness : 0 <= 3.
Proof.
  apply (@sampler_len_nonneg unit Z
           (SamplerIterDataPipe.mk (sized_source [1; 2; 3])
              {| tp_iter := builtins.iter (sized_source [1; 2; 3]);
                 sq_length := Some (builtins.len (sized_source [1; 2; 3])) |})
           3 w0).
  reflexivity.
Defined.

Lemma sampler_over_filter_count_witness :
  let filtered : FilterIterDataPipe.t unit Z :=
    FilterIterDataPipe.mk (sized_source [1; 2; 3; 4; 5; 6]) is_even [] [] in
  exists self,
    SamplerIterDataPipe.__init__ (FilterIterDataPipe.as_datapipe filtered)
      (Some sampler_counting_source) [] w0 = (Ok self, w0) /\
    SamplerIterDataPipe.__len__ self w0 = (Raise NotImplementedError, w0).
Proof.
  intros filtered.
  destruct (@sampler_over_filter_count unit Z filtered
              sampler_counting_source []
              {| tp_iter := builtins.iter (FilterIterDataPipe.as_datapipe filtered);
                 sq_length :=
                   Some (builtins.len (FilterIterDataPipe.as_datapipe filtered)) |}
              w0 w0 eq_refl eq_refl)
    as [Hinit Hlen].
  eexists. split; [exact Hinit|exact (Hlen w0)].
Defined.

Lemma sampler_list_needs_sized_sampler_witness :
  let up : Iterable unit Z := sized_source [1; 2; 3] in
  let s : Iterable unit Z := unsized_source [1; 2; 3] in
  fst (builtins.list_
         (SamplerIterDataPipe.as_datapipe (SamplerIterDataPipe.mk up s)) w0) =
    Raise NotImplementedError /\
  builtins.list_ s w0 = (Ok [1; 2; 3], w0).
Proof.
  intros up s.
  destruct (@sampler_list_needs_sized_sampler unit Z
              (SamplerIterDataPipe.mk up s) w0
              (yield_from [1; 2; 3] StopIteration) w0 eq_refl eq_refl)
    as [Hlist Hsame].
  split; [exact Hlist|]. exact Hsame.
Defined.

Lemma sampler_len_overflow_count_witness :
  let up : Iterable unit Z := sized_source [1; 2; 3] in
  SamplerIterDataPipe.__len__
    (SamplerIterDataPipe.mk up
       {| tp_iter := builtins.iter up; sq_length := Some (ret (2 ^ 63)) |}) w0 =
  (Raise (OverflowError "cannot fit 'int' into an index-sized integer"), w0).
Proof.
  intros up.
  apply (@sampler_len_overflow_count unit Z
           (SamplerIterDataPipe.mk up
              {| tp_iter := builtins.iter up;
                 sq_length := Some (ret (2 ^ 63)) |})
           (2 ^ 63) w0).
  - exists (ret (2 ^ 63)). split; [reflexivity|]. intros w. reflexivity.
  - unfold builtins.sys_maxsize. lia.
Defined.
